(** * Monitor Collector API: the request handlers of [main.py] over a
      relational store.

    The two tables of [init_db] are lists of rows in storage order.  A handler
    is a function from the store to a response and the store it leaves behind.
    The wall clock ([datetime.utcnow()], SQL [NOW()]) is an argument of the
    handler that reads it.  [datetime.fromisoformat], the configured [API_KEY]
    and the storage engine are the variables of the section the handlers live
    in.

    What the storage engine does with the values an INSERT passes it, and how
    it orders rows of equal [ts], is not written in this repository; it is
    the [Engine] the handlers are given.  An INSERT the engine refuses, a
    string the driver refuses, a [LIMIT] outside the engine's range and a
    response body the JSON encoder cannot render all end the request in an
    exception nobody catches.  Connections are taken to open. *)

From Stdlib Require Import ZArith List String Ascii Bool Lia.
From Stdlib Require Import Permutation Sorting.Sorted PrimFloat.
Import ListNotations.
Open Scope string_scope.
Open Scope list_scope.
Open Scope Z_scope.

(** ** Data model *)

(** A [TIMESTAMP] value, counted in microseconds; only its order matters. *)
Definition datetime := Z.

(** A value of Python's [datetime]: the wall-clock reading, and the offset
    from UTC in seconds when the value carries a time zone. *)
Record pydatetime := mkPy {
  wall : datetime;
  utcoffset : option Z
}.

(** [class Payload(BaseModel)]: the validated request body of /api/collect. *)
Record Payload := mkPayload {
  client_id : string;
  timestamp : string;
  cpu : float;
  ram : float
}.

(** A row of table [metricas]; [m_cpu] and [m_ram] are the [REAL] values the
    engine keeps. *)
Record MetricaRow := mkMetrica {
  m_id : Z;
  m_client_id : string;
  m_ts : datetime;
  m_cpu : float;
  m_ram : float
}.

(** A row of table [comandos]. *)
Record ComandoRow := mkComando {
  c_client_id : string;
  c_command : string;
  c_updated_at : datetime
}.

(** The store: both tables and the sequence behind [metricas.id SERIAL]. *)
Record Database := mkDatabase {
  metricas : list MetricaRow;
  metricas_id_seq : Z;
  comandos : list ComandoRow
}.

(** The store right after [init_db] on a fresh database. *)
Definition init_db : Database := mkDatabase [] 0 [].

(** The storage engine, as far as the handlers depend on it:
    - [to_real]: the [REAL] value kept for a double, or [None] when the
      engine refuses the value as out of range;
    - [to_timestamp]: the [TIMESTAMP] kept for a zone-aware value, given as
      wall clock and offset, or [None] when the engine refuses it;
    - [newest n rows]: the result of [ORDER BY ts DESC LIMIT n] on [rows]. *)
Record Engine := mkEngine {
  to_real : float -> option float;
  to_timestamp : datetime -> Z -> option datetime;
  newest : nat -> list MetricaRow -> list MetricaRow
}.

(** JSON values the handlers put into their response dictionaries. *)
Inductive json :=
| JString (s : string)
| JDatetime (t : datetime).

Definition jdict := list (string * json).

(** What a request ends in: a body, a raised [HTTPException], or an exception
    nobody catches (the framework answers 500). *)
Inductive response (A : Type) :=
| Ok (content : A)
| HTTPException (status_code : Z) (detail : string)
| Unhandled.

Arguments Ok {A} content.
Arguments HTTPException {A} status_code detail.
Arguments Unhandled {A}.

Definition handler (A : Type) := Database -> response A * Database.

(** ** Python and SQL primitives *)

(** [needle in hay] on [str]: [needle] occurs as a contiguous substring. *)
Fixpoint str_in (needle hay : string) : bool :=
  String.prefix needle hay ||
  match hay with
  | EmptyString => false
  | String _ rest => str_in needle rest
  end.

(** Truth value of an [Optional[str]]: [None] and the empty string are falsy. *)
Definition truthy (s : option string) : bool :=
  match s with
  | None => false
  | Some EmptyString => false
  | Some (String _ _) => true
  end.

(** The string holds a NUL character; the driver raises on such a query
    argument. *)
Fixpoint has_nul (s : string) : bool :=
  match s with
  | EmptyString => false
  | String c rest => Ascii.eqb c Ascii.zero || has_nul rest
  end.

(** [WHERE client_id = %s] on each table. *)
Definition metricas_of (cid : string) (rows : list MetricaRow) : list MetricaRow :=
  filter (fun r => String.eqb (m_client_id r) cid) rows.

Definition comandos_of (cid : string) (rows : list ComandoRow) : list ComandoRow :=
  filter (fun r => String.eqb (c_client_id r) cid) rows.

(** Newest first, and oldest first. *)
Definition descending (rows : list MetricaRow) : Prop :=
  StronglySorted (fun a b => m_ts b <= m_ts a) rows.

Definition ascending (rows : list MetricaRow) : Prop :=
  StronglySorted (fun a b => m_ts a <= m_ts b) rows.

(** What [ORDER BY ts DESC LIMIT n] promises of any engine: the result is
    made of rows of the table, newest first, [n] of them or all if there are
    fewer, and no row left out is newer than a row taken.  Among rows of equal
    [ts] the choice and the order are the engine's. *)
Definition selects_newest (e : Engine) : Prop :=
  forall n rows, exists rest,
    Permutation rows (newest e n rows ++ rest) /\
    descending (newest e n rows) /\
    List.length (newest e n rows) = Nat.min n (List.length rows) /\
    forall r x, In r (newest e n rows) -> In x rest -> m_ts x <= m_ts r.

(** The engine takes [LIMIT] as a [bigint] and refuses a negative one. *)
Definition bigint_max : Z := 9223372036854775807.

Definition limit_accepted (limit : Z) : bool :=
  (0 <=? limit) && (limit <=? bigint_max).

(** The values of an [INSERT INTO metricas] as the engine keeps them, or
    [None] when the statement raises: the driver refuses a string with NUL,
    a zone-less timestamp is kept as it is, a zone-aware one and the two
    doubles are converted by the engine. *)
Definition kept_timestamp (e : Engine) (ts : pydatetime) : option datetime :=
  match utcoffset ts with
  | None => Some (wall ts)
  | Some off => to_timestamp e (wall ts) off
  end.

Definition adapt_insert (e : Engine) (cid : string) (ts : pydatetime)
    (c r : float) : option (string * datetime * float * float) :=
  if has_nul cid then None
  else
    match kept_timestamp e ts, to_real e c, to_real e r with
    | Some t, Some c', Some r' => Some (cid, t, c', r')
    | _, _, _ => None
    end.

(** [INSERT INTO metricas (client_id, ts, cpu, ram) VALUES ...] with the
    values as kept: the sequence is advanced and its new value is the row's
    [id]. *)
Definition insert_metrica (cid : string) (ts : datetime) (c r : float)
    (db : Database) : Database :=
  let id := metricas_id_seq db + 1 in
  mkDatabase (metricas db ++ [mkMetrica id cid ts c r]) id (comandos db).

(** [INSERT INTO comandos ... ON CONFLICT (client_id) DO UPDATE SET
    command = EXCLUDED.command, updated_at = EXCLUDED.updated_at]. *)
Fixpoint upsert_comando (new : ComandoRow) (rows : list ComandoRow) : list ComandoRow :=
  match rows with
  | [] => [new]
  | x :: rest =>
      if String.eqb (c_client_id x) (c_client_id new)
      then mkComando (c_client_id x) (c_command new) (c_updated_at new) :: rest
      else x :: upsert_comando new rest
  end.

(** [json.dumps] on the row list of [metrics]: every row holds its [ts], a
    [datetime] the encoder has no rule for, so it raises [TypeError] unless
    the list is empty. *)
Definition renders (rows : list MetricaRow) : bool :=
  match rows with
  | [] => true
  | _ :: _ => false
  end.

(** ** The handlers *)

Section Handlers.

(** [API_KEY = os.environ.get("API_KEY", "minha-chave-teste")]. *)
Variable API_KEY : string.

(** [datetime.fromisoformat]; [None] stands for the exception it raises. *)
Variable fromisoformat : string -> option pydatetime.

(** The engine behind [get_conn]. *)
Variable engine : Engine.

(** POST /api/collect. *)
Definition collect (payload : Payload) (authorization : option string)
    (utcnow : datetime) : handler jdict :=
  fun db =>
    let ts :=
      match fromisoformat (timestamp payload) with
      | Some t => t
      | None => mkPy utcnow None
      end in
    match adapt_insert engine (client_id payload) ts (cpu payload) (ram payload) with
    | Some (cid, t, c, r) =>
        (Ok [("status", JString "ok")], insert_metrica cid t c r db)
    | None => (Unhandled, db)
    end.

(** GET /api/command/{client_id}. *)
Definition get_command (cid : string) : handler jdict :=
  fun db =>
    match comandos_of cid (comandos db) with
    | [] => (Ok [("command", JString "stop")], db)
    | row :: _ =>
        (Ok [("command", JString (c_command row));
             ("updated_at", JDatetime (c_updated_at row))], db)
    end.

(** POST /api/command/{client_id}. *)
Definition set_command (cid command : string) (authorization : option string)
    (now : datetime) : handler jdict :=
  fun db =>
    if negb (truthy authorization)
       || negb (str_in API_KEY (match authorization with Some a => a | None => "" end))
    then (HTTPException 401 "Unauthorized", db)
    else if negb (existsb (String.eqb command) ["start"; "stop"])
    then (HTTPException 400 "Invalid command", db)
    else
      (Ok [("status", JString "ok"); ("client_id", JString cid);
           ("command", JString command)],
       mkDatabase (metricas db) (metricas_id_seq db)
                  (upsert_comando (mkComando cid command now) (comandos db))).

(** The list [metrics] holds when it builds its response: the rows fetched,
    reversed. *)
Definition metrics_rows (cid : string) (limit : Z) (db : Database)
  : list MetricaRow :=
  rev (newest engine (Z.to_nat limit) (metricas_of cid (metricas db))).

(** GET /api/metrics/{client_id}?limit=N. *)
Definition metrics (cid : string) (limit : Z) : handler (list MetricaRow) :=
  fun db =>
    if has_nul cid then (Unhandled, db)
    else if limit_accepted limit
    then
      let rows := metrics_rows cid limit db in
      if renders rows then (Ok rows, db) else (Unhandled, db)
    else (Unhandled, db).

(** [limit: int = 500]. *)
Definition default_limit : Z := 500.

Definition metrics_query (cid : string) (limit : option Z)
  : handler (list MetricaRow) :=
  metrics cid (match limit with Some n => n | None => default_limit end).

(** A request to one of the four data endpoints, with the clock reading the
    handler would take. *)
Inductive request :=
| Collect (payload : Payload) (authorization : option string) (utcnow : datetime)
| GetCommand (cid : string)
| SetCommand (cid command : string) (authorization : option string) (now : datetime)
| Metrics (cid : string) (limit : option Z).

(** The store a request leaves behind. *)
Definition serve (rq : request) (db : Database) : Database :=
  match rq with
  | Collect p a t => snd (collect p a t db)
  | GetCommand cid => snd (get_command cid db)
  | SetCommand cid c a t => snd (set_command cid c a t db)
  | Metrics cid l => snd (metrics_query cid l db)
  end.

(** Stores the server can be in: any sequence of requests since [init_db]. *)
Inductive reachable : Database -> Prop :=
| reach_init : reachable init_db
| reach_serve rq db : reachable db -> reachable (serve rq db).

End Handlers.

(** ** A concrete deployment

    The default key, a parser that knows three instants five seconds apart,
    and one engine: enough to run the handlers on explicit requests. *)

Definition default_key : string := "minha-chave-teste".

Definition known_instants : list (string * datetime) :=
  [("2024-05-01T10:00:00", 1714557600000000);
   ("2024-05-01T10:00:05", 1714557605000000);
   ("2024-05-01T10:00:10", 1714557610000000)].

Definition fromisoformat_known (s : string) : option pydatetime :=
  option_map (fun e => mkPy (snd e) None)
             (find (fun e => String.eqb (fst e) s) known_instants).

(** Single precision: the largest finite value, and rounding of a double to
    24 significant bits. *)
Definition real_max : float := 0x1.fffffep+127%float.

Definition round24 (x : float) : float :=
  let c := (536870913 * x)%float in (c - (c - x))%float.

Definition to_real_sample (x : float) : option float :=
  if (abs x <=? real_max)%float then Some (round24 x) else None.

(** Offsets of less than sixteen hours are taken, in a session at UTC. *)
Definition to_timestamp_sample (w : datetime) (off : Z) : option datetime :=
  if Z.abs off <? 57600 then Some (w - off * 1000000) else None.

(** [ORDER BY ts DESC] as an insertion sort in which a row goes in front of
    its equals, then the first [n] rows. *)
Fixpoint insert_desc (r : MetricaRow) (rows : list MetricaRow) : list MetricaRow :=
  match rows with
  | [] => [r]
  | x :: rest =>
      if m_ts x <=? m_ts r then r :: x :: rest else x :: insert_desc r rest
  end.

Definition order_by_ts_desc (rows : list MetricaRow) : list MetricaRow :=
  fold_right insert_desc [] rows.

Definition sample_engine : Engine :=
  mkEngine to_real_sample to_timestamp_sample
           (fun n rows => firstn n (order_by_ts_desc rows)).

Definition sample (cid ts : string) : Payload := mkPayload cid ts 10 20.

(** Three samples of client pc-1, ingested oldest first into a fresh store. *)
Definition three_samples : Database :=
  snd (collect fromisoformat_known sample_engine
         (sample "pc-1" "2024-05-01T10:00:10") None 0
    (snd (collect fromisoformat_known sample_engine
            (sample "pc-1" "2024-05-01T10:00:05") None 0
      (snd (collect fromisoformat_known sample_engine
              (sample "pc-1" "2024-05-01T10:00:00") None 0
        init_db))))).
(** ** Predicates used in the statements *)

(** The credential is there, is not empty, and holds the key somewhere. *)
Definition presents_key (key : string) (authorization : option string) : Prop :=
  exists a, authorization = Some a /\ a <> "" /\
            exists pre post, a = (pre ++ key ++ post)%string.


(** An accepted command value. *)
Definition valid_command (command : string) : Prop :=
  command = "start" \/ command = "stop".

(** ** Process start *)

(** [os.environ]: the variables that are set, with their values. *)
Definition environ := string -> option string.


(** The two module-level settings. *)
Record Settings := mkSettings {
  DB_URL : string;
  API_KEY : string
}.

(** The top of the module: both variables are read, [API_KEY] with its
    default, and a [DATABASE_URL] that is unset or empty raises
    [RuntimeError] ([None] here) before the application exists. *)
Definition module_init (env : environ) : option Settings :=
  let db_url := env "DATABASE_URL" in
  let api_key :=
    match env "API_KEY" with
    | Some k => k
    | None => "minha-chave-teste"
    end in
  if negb (truthy db_url) then None
  else Some (mkSettings (match db_url with Some u => u | None => "" end) api_key).

(** What the database holds before the tables are known to exist: each table
    is there or not; [metricas] comes with its id sequence. *)
Record Storage := mkStorage {
  tbl_metricas : option (list MetricaRow * Z);
  tbl_comandos : option (list ComandoRow)
}.

(** [startup], that is [init_db]: two [CREATE TABLE IF NOT EXISTS]. *)
Definition startup (s : Storage) : Storage :=
  mkStorage
    (match tbl_metricas s with
     | Some t => Some t
     | None => Some ([], 0)
     end)
    (match tbl_comandos s with
     | Some t => Some t
     | None => Some []
     end).

(** The store the handlers work on, when both tables exist. *)
Definition tables (s : Storage) : option Database :=
  match tbl_metricas s, tbl_comandos s with
  | Some (rows, sq), Some cmds => Some (mkDatabase rows sq cmds)
  | _, _ => None
  end.

(** ** Request sequences *)

(** The store after serving the requests one after the other. *)
Definition run (key : string) (fromisoformat : string -> option pydatetime)
    (engine : Engine) (trace : list request) (db : Database) : Database :=
  fold_left (fun d rq => serve key fromisoformat engine rq d) trace db.

(** The negation of the test that raises 401 in [set_command]. *)
Definition passes_guard (key : string) (authorization : option string) : bool :=
  negb (negb (truthy authorization)
        || negb (str_in key (match authorization with Some a => a | None => "" end))).

(** The row a request writes to [comandos], if it is a command write that
    passes both checks. *)
Definition accepted_write (key : string) (rq : request) : option ComandoRow :=
  match rq with
  | SetCommand cid command a t =>
      if passes_guard key a && existsb (String.eqb command) ["start"; "stop"]
      then Some (mkComando cid command t)
      else None
  | _ => None
  end.



(** Requests that can change the store: every ingestion, and the command
    writes that pass both checks. *)
Definition changes_store (key : string) (rq : request) : bool :=
  match rq with
  | Collect _ _ _ => true
  | SetCommand _ _ _ _ =>
      match accepted_write key rq with Some _ => true | None => false end
  | GetCommand _ => false
  | Metrics _ _ => false
  end.

(** The values an ingestion hands to the INSERT, as the engine keeps them;
    [None] when the INSERT raises. *)
Definition stored_values (fromisoformat : string -> option pydatetime)
    (engine : Engine) (p : Payload) (utcnow : datetime)
  : option (string * datetime * float * float) :=
  adapt_insert engine (client_id p)
    (match fromisoformat (timestamp p) with
     | Some t => t
     | None => mkPy utcnow None
     end)
    (cpu p) (ram p).

(** The row an ingestion adds to a store whose sequence stands at [sq]. *)
Definition stored_row (sq : Z) (v : string * datetime * float * float)
  : MetricaRow :=
  let '(cid, t, c, r) := v in mkMetrica (sq + 1) cid t c r.

(** Ingestion requests whose INSERT goes through. *)
Definition stored_collect (fromisoformat : string -> option pydatetime)
    (engine : Engine) (rq : request) : bool :=
  match rq with
  | Collect p _ utcnow =>
      match stored_values fromisoformat engine p utcnow with
      | Some _ => true
      | None => false
      end
  | _ => false
  end.

Definition is_collect (rq : request) : bool :=
  match rq with
  | Collect _ _ _ => true
  | _ => false
  end.


(** The ids a fresh sequence hands out for [n] inserts: 1, 2, ..., n. *)
Definition serial_ids (n : nat) : list Z := map Z.of_nat (seq 1 n).

(** ** Substring test *)

Lemma prefix_append (n h : string) :
  String.prefix n h = true <-> exists post, h = (n ++ post)%string.
Proof.
  revert h; induction n as [|c n IH]; intros [|d h]; simpl.
  - split; [intros _; now exists "" | reflexivity].
  - split; [intros _; now exists (String d h) | reflexivity].
  - split; [discriminate | intros [post E]; discriminate].
  - destruct (Ascii.ascii_dec c d) as [->|Hcd].
    + rewrite IH. split; intros [post E]; exists post.
      * now rewrite E.
      * now inversion E.
    + split; [discriminate | intros [post E]; inversion E; congruence].
Qed.

(** [str_in] is Python's [in]: the needle sits between some prefix and some
    suffix of the haystack. *)
Lemma str_in_spec (n h : string) :
  str_in n h = true <-> exists pre post, h = (pre ++ n ++ post)%string.
Proof.
  induction h as [|d h IH].
  - cbn [str_in]. rewrite orb_false_r, prefix_append. split.
    + intros [post E]. now exists EmptyString, post.
    + intros [pre [post E]]. destruct pre; [now exists post | discriminate].
  - cbn [str_in]. rewrite orb_true_iff, prefix_append, IH. split.
    + intros [[post E] | [pre [post E]]].
      * now exists EmptyString, post.
      * exists (String d pre), post. simpl. now rewrite E.
    + intros [pre [post E]]. destruct pre as [|c pre]; simpl in E.
      * left. now exists post.
      * right. inversion E. now exists pre, post.
Qed.

Lemma str_in_false (n h : string) :
  (forall pre post, h <> (pre ++ n ++ post)%string) -> str_in n h = false.
Proof.
  intros H. destruct (str_in n h) eqn:E; [|reflexivity].
  apply str_in_spec in E. destruct E as [pre [post E]]. now elim (H pre post).
Qed.

Lemma truthy_Some (a : string) : a <> "" -> truthy (Some a) = true.
Proof. destruct a; [congruence | reflexivity]. Qed.

(** ** Sorted windows *)

Section Windows.

Context {A : Type}.

Lemma Forall_firstn (P : A -> Prop) (n : nat) (l : list A) :
  Forall P l -> Forall P (firstn n l).
Proof.
  intros H. revert n. induction H as [|a l Ha Hl IH]; intros [|n]; simpl;
    constructor; auto.
Qed.

Lemma StronglySorted_firstn (R : A -> A -> Prop) (n : nat) (l : list A) :
  StronglySorted R l -> StronglySorted R (firstn n l).
Proof.
  intros H. revert n. induction H as [|a l Hl IH Ha]; intros [|n]; simpl;
    try constructor; auto using Forall_firstn.
Qed.

Lemma StronglySorted_app_cross (R : A -> A -> Prop) (l1 l2 : list A) :
  StronglySorted R (l1 ++ l2) ->
  forall a b, In a l1 -> In b l2 -> R a b.
Proof.
  induction l1 as [|x l1 IH]; simpl; intros H a b Ha Hb; [contradiction|].
  inversion H as [|? ? Hs Hf]; subst. destruct Ha as [->|Ha].
  - rewrite Forall_forall in Hf. apply Hf, in_or_app. now right.
  - eapply IH; eassumption.
Qed.

Lemma StronglySorted_snoc (R : A -> A -> Prop) (l : list A) (a : A) :
  StronglySorted R l -> Forall (fun x => R x a) l ->
  StronglySorted R (l ++ [a]).
Proof.
  induction 1 as [|x l Hl IH Hx]; simpl; intros Hf.
  - repeat constructor.
  - inversion Hf; subst. constructor; [auto|].
    apply Forall_app; split; [assumption | now constructor].
Qed.

Lemma StronglySorted_rev (R : A -> A -> Prop) (l : list A) :
  StronglySorted R l -> StronglySorted (fun a b => R b a) (rev l).
Proof.
  induction 1 as [|x l Hl IH Hx]; simpl; [constructor|].
  apply StronglySorted_snoc; [assumption|].
  rewrite Forall_forall in *. intros y Hy. apply Hx. now apply in_rev.
Qed.

End Windows.

(** ** The insertion sort of the sample engine *)

Lemma insert_desc_perm (r : MetricaRow) (rows : list MetricaRow) :
  Permutation (insert_desc r rows) (r :: rows).
Proof.
  induction rows as [|x rest IH]; simpl; [reflexivity|].
  destruct (m_ts x <=? m_ts r); [reflexivity|].
  rewrite IH. apply perm_swap.
Qed.

Lemma order_by_ts_desc_perm (rows : list MetricaRow) :
  Permutation (order_by_ts_desc rows) rows.
Proof.
  induction rows as [|x rest IH]; simpl; [reflexivity|].
  rewrite insert_desc_perm. now constructor.
Qed.

Lemma insert_desc_sorted (r : MetricaRow) (rows : list MetricaRow) :
  descending rows -> descending (insert_desc r rows).
Proof.
  unfold descending. induction 1 as [|x rest Hs IH Hx]; simpl.
  - repeat constructor.
  - destruct (Z.leb_spec (m_ts x) (m_ts r)) as [Hle|Hlt].
    + constructor; [now constructor|].
      constructor; [assumption|].
      eapply Forall_impl; [|exact Hx]. simpl. intros y Hy. lia.
    + constructor; [assumption|].
      eapply Permutation_Forall; [symmetry; apply insert_desc_perm|].
      constructor; [lia | assumption].
Qed.

Lemma order_by_ts_desc_sorted (rows : list MetricaRow) :
  descending (order_by_ts_desc rows).
Proof.
  induction rows as [|x rest IH]; simpl.
  - constructor.
  - now apply insert_desc_sorted.
Qed.


(** ** Metrics query *)

Lemma limit_accepted_iff (limit : Z) :
  limit_accepted limit = true <-> 0 <= limit <= bigint_max.
Proof. unfold limit_accepted. rewrite andb_true_iff, !Z.leb_le. tauto. Qed.

Lemma metricas_of_insert (cid cid' : string) (ts : datetime) (c r : float)
    (db : Database) :
  metricas_of cid (metricas (insert_metrica cid' ts c r db)) =
  metricas_of cid (metricas db) ++
  (if String.eqb cid' cid
   then [mkMetrica (metricas_id_seq db + 1) cid' ts c r] else []).
Proof. unfold metricas_of. simpl. now rewrite filter_app. Qed.

(** The insertion sort is one engine that keeps the promise of
    [ORDER BY ts DESC LIMIT n]. *)
Lemma sample_engine_selects_newest : selects_newest sample_engine.
Proof.
  intros n rows. simpl.
  exists (skipn n (order_by_ts_desc rows)).
  pose proof (order_by_ts_desc_sorted rows) as Hs. unfold descending in *.
  repeat split.
  - rewrite firstn_skipn. symmetry. apply order_by_ts_desc_perm.
  - now apply StronglySorted_firstn.
  - rewrite length_firstn.
    now rewrite (Permutation_length (order_by_ts_desc_perm rows)).
  - intros r x Hr Hx.
    rewrite <- (firstn_skipn n (order_by_ts_desc rows)) in Hs.
    exact (StronglySorted_app_cross _ _ _ Hs r x Hr Hx).
Qed.

Lemma metrics_rows_length (e : Engine) (cid : string) (limit : Z)
    (db : Database) :
  selects_newest e -> 0 <= limit ->
  Z.of_nat (List.length (metrics_rows e cid limit db)) =
  Z.min limit (Z.of_nat (List.length (metricas_of cid (metricas db)))).
Proof.
  intros He Hl. unfold metrics_rows. rewrite length_rev.
  destruct (He (Z.to_nat limit) (metricas_of cid (metricas db)))
    as [rest [_ [_ [Hlen _]]]].
  rewrite Hlen. lia.
Qed.

Lemma metrics_rows_nonempty (e : Engine) (cid : string) (limit : Z)
    (db : Database) :
  selects_newest e -> 0 < limit ->
  metricas_of cid (metricas db) <> [] ->
  metrics_rows e cid limit db <> [].
Proof.
  intros He Hl Hne E.
  pose proof (metrics_rows_length e cid limit db He ltac:(lia)) as Hlen.
  rewrite E in Hlen. simpl in Hlen.
  destruct (metricas_of cid (metricas db)); [congruence|].
  simpl List.length in Hlen. lia.
Qed.

(** With a row to return, the response cannot be built. *)
Lemma metrics_unhandled_of_rows (e : Engine) (cid : string) (limit : Z)
    (db : Database) :
  selects_newest e -> 0 < limit <= bigint_max ->
  metricas_of cid (metricas db) <> [] ->
  metrics e cid limit db = (Unhandled, db).
Proof.
  intros He Hl Hne. unfold metrics.
  destruct (has_nul cid); [reflexivity|].
  assert (A : limit_accepted limit = true) by (apply limit_accepted_iff; lia).
  rewrite A.
  pose proof (metrics_rows_nonempty e cid limit db He ltac:(lia) Hne) as Hr.
  now destruct (metrics_rows e cid limit db).
Qed.

(** C1: for a client with stored samples and a positive limit the engine
    accepts, the handler does fetch what the claim describes: the newest
    rows of the client, min(limit, stored) of them, oldest first, none of the
    rows left out newer than a row taken.  It then hands that list, whose
    rows each hold a datetime, to the JSON response unencoded, and the
    request ends in an unhandled error instead of returning the rows. *)
Theorem metrics_fails_on_samples (e : Engine) (cid : string) (limit : Z)
    (db : Database) :
  selects_newest e ->
  0 < limit <= bigint_max ->
  metricas_of cid (metricas db) <> [] ->
  let mine := metricas_of cid (metricas db) in
  let rows := metrics_rows e cid limit db in
  (exists older,
      Permutation mine (rows ++ older) /\
      forall r x, In r rows -> In x older -> m_ts x <= m_ts r) /\
  ascending rows /\
  Z.of_nat (List.length rows) = Z.min limit (Z.of_nat (List.length mine)) /\
  rows <> [] /\
  metrics e cid limit db = (Unhandled, db).
Proof.
  intros He Hl Hne mine rows.
  destruct (He (Z.to_nat limit) mine) as [rest [Hp [Hd [_ Hx]]]].
  split; [|split; [|split; [|split]]].
  - exists rest. unfold rows, metrics_rows. fold mine. split.
    + eapply Permutation_trans; [exact Hp|].
      apply Permutation_app_tail, Permutation_rev.
    + intros r x Hr Hin. apply in_rev in Hr. now apply Hx.
  - unfold rows, metrics_rows, ascending. fold mine.
    now apply (StronglySorted_rev (fun a b => m_ts b <= m_ts a)).
  - apply metrics_rows_length; [assumption | lia].
  - apply metrics_rows_nonempty; [assumption | lia | assumption].
  - now apply metrics_unhandled_of_rows.
Qed.

Lemma metrics_fails_on_samples_witness :
  metrics_rows sample_engine "pc-1" 2 three_samples =
    [mkMetrica 2 "pc-1" 1714557605000000 10 20;
     mkMetrica 3 "pc-1" 1714557610000000 10 20] /\
  metrics sample_engine "pc-1" 2 three_samples = (Unhandled, three_samples).
Proof.
  assert (Hl : 0 < 2 <= bigint_max) by (unfold bigint_max; lia).
  assert (Hne : metricas_of "pc-1" (metricas three_samples) <> [])
    by (vm_compute; discriminate).
  split; [reflexivity|].
  exact (proj2 (proj2 (proj2 (proj2
           (metrics_fails_on_samples sample_engine "pc-1" 2 three_samples
              sample_engine_selects_newest Hl Hne))))).
Defined.
(** ** Command store *)








(** ** The credential check *)

Lemma guard_passes (key : string) (authorization : option string) :
  presents_key key authorization ->
  negb (truthy authorization)
  || negb (str_in key (match authorization with Some a => a | None => "" end))
  = false.
Proof.
  intros [a [-> [Ha Hsub]]].
  rewrite (truthy_Some a Ha). apply str_in_spec in Hsub. now rewrite Hsub.
Qed.

Lemma guard_rejects (key : string) (authorization : option string) :
  authorization = None \/
  (exists a, authorization = Some a /\
             forall pre post, a <> (pre ++ key ++ post)%string) ->
  negb (truthy authorization)
  || negb (str_in key (match authorization with Some a => a | None => "" end))
  = true.
Proof.
  intros [->|[a [-> H]]]; [reflexivity|].
  rewrite (str_in_false _ _ H). apply orb_true_r.
Qed.

Lemma command_check (command : string) :
  existsb (String.eqb command) ["start"; "stop"] = true <-> valid_command command.
Proof.
  unfold valid_command. simpl.
  rewrite !orb_true_iff, !String.eqb_eq. intuition discriminate.
Qed.


(** ** Command endpoints *)


Lemma bearer_presents_key :
  presents_key default_key (Some "Bearer minha-chave-teste").
Proof.
  exists "Bearer minha-chave-teste". repeat split; [discriminate|].
  now exists "Bearer ", "".
Qed.


(** C3: a write whose Authorization header is absent, or does not contain the
    configured key as a substring, ends in 401 Unauthorized and leaves the
    store, hence every client's command, as it was. *)
Theorem unauthorized_write_rejected (key cid command : string)
    (authorization : option string) (now : datetime) (db : Database) :
  authorization = None \/
  (exists a, authorization = Some a /\
             forall pre post, a <> (pre ++ key ++ post)%string) ->
  set_command key cid command authorization now db =
    (HTTPException 401 "Unauthorized", db) /\
  forall cid',
    get_command cid' (snd (set_command key cid command authorization now db)) =
    get_command cid' db.
Proof.
  intros H. unfold set_command. rewrite (guard_rejects _ _ H).
  split; reflexivity.
Qed.

Lemma unauthorized_write_rejected_witness :
  set_command default_key "pc-1" "start" None 7 init_db =
  (HTTPException 401 "Unauthorized", init_db).
Proof.
  exact (proj1 (unauthorized_write_rejected default_key "pc-1" "start" None 7
                  init_db (or_introl eq_refl))).
Defined.

(** C4: a write that carries the key but whose command is neither "start"
    nor "stop" ends in 400 Invalid command and leaves the store as it was. *)
Theorem invalid_command_rejected (key cid command : string)
    (authorization : option string) (now : datetime) (db : Database) :
  presents_key key authorization ->
  ~ valid_command command ->
  set_command key cid command authorization now db =
    (HTTPException 400 "Invalid command", db) /\
  forall cid',
    get_command cid' (snd (set_command key cid command authorization now db)) =
    get_command cid' db.
Proof.
  intros Hk Hc. unfold set_command. rewrite (guard_passes _ _ Hk).
  destruct (existsb (String.eqb command) ["start"; "stop"]) eqn:E.
  - apply command_check in E. contradiction.
  - split; reflexivity.
Qed.

Lemma restart_not_valid : ~ valid_command "restart".
Proof. intros [E|E]; discriminate E. Qed.

Lemma invalid_command_rejected_witness :
  set_command default_key "pc-1" "restart"
              (Some "Bearer minha-chave-teste") 7 init_db =
  (HTTPException 400 "Invalid command", init_db).
Proof.
  exact (proj1 (invalid_command_rejected default_key "pc-1" "restart"
                  (Some "Bearer minha-chave-teste") 7 init_db
                  bearer_presents_key restart_not_valid)).
Defined.



(** ** One command row per client *)




Lemma three_samples_reachable :
  reachable default_key fromisoformat_known sample_engine three_samples.
Proof.
  unfold three_samples.
  apply (reach_serve default_key fromisoformat_known sample_engine
           (Collect _ None 0)).
  apply (reach_serve default_key fromisoformat_known sample_engine
           (Collect _ None 0)).
  apply (reach_serve default_key fromisoformat_known sample_engine
           (Collect _ None 0)).
  apply reach_init.
Qed.


(** ** Ingestion *)

(** The two ways an ingestion ends. *)
Lemma collect_cases (fromisoformat : string -> option pydatetime)
    (e : Engine) (p : Payload) (a : option string) (utcnow : datetime)
    (db : Database) :
  collect fromisoformat e p a utcnow db =
  match stored_values fromisoformat e p utcnow with
  | Some v =>
      (Ok [("status", JString "ok")],
       mkDatabase (metricas db ++ [stored_row (metricas_id_seq db) v])
                  (metricas_id_seq db + 1) (comandos db))
  | None => (Unhandled, db)
  end.
Proof.
  unfold collect, stored_values.
  now destruct (adapt_insert _ _ _ _ _) as [[[[c t] x] y]|].
Qed.

Lemma adapt_insert_Some (e : Engine) (cid cid' : string) (ts : pydatetime)
    (c r c' r' : float) (t : datetime) :
  adapt_insert e cid ts c r = Some (cid', t, c', r') <->
  has_nul cid = false /\ cid' = cid /\ kept_timestamp e ts = Some t /\
  to_real e c = Some c' /\ to_real e r = Some r'.
Proof.
  unfold adapt_insert.
  destruct (has_nul cid); [split; [discriminate | intros [H _]; discriminate H]|].
  destruct (kept_timestamp e ts) as [t0|];
    [|split; [discriminate | intros [_ [_ [H _]]]; discriminate H]].
  destruct (to_real e c) as [c0|];
    [|split; [discriminate | intros [_ [_ [_ [H _]]]]; discriminate H]].
  destruct (to_real e r) as [r0|];
    [|split; [discriminate | intros [_ [_ [_ [_ H]]]]; discriminate H]].
  split.
  - intros H. inversion H; subst. repeat split.
  - intros [_ [-> [H1 [H2 H3]]]]. inversion H1; inversion H2; inversion H3.
    now subst.
Qed.

Lemma adapt_insert_None (e : Engine) (cid : string) (ts : pydatetime)
    (c r : float) :
  adapt_insert e cid ts c r = None <->
  has_nul cid = true \/ kept_timestamp e ts = None \/
  to_real e c = None \/ to_real e r = None.
Proof.
  unfold adapt_insert.
  destruct (has_nul cid); [split; [now left | reflexivity]|].
  destruct (kept_timestamp e ts) as [t0|];
    [|split; [intros _; right; now left | reflexivity]].
  destruct (to_real e c) as [c0|];
    [|split; [intros _; right; right; now left | reflexivity]].
  destruct (to_real e r) as [r0|];
    [|split; [intros _; now do 3 right | reflexivity]].
  split; [discriminate|].
  intros [H|[H|[H|H]]]; discriminate H.
Qed.

(** Whether the INSERT goes through does not depend on the clock. *)
Lemma stored_values_any_clock (fromisoformat : string -> option pydatetime)
    (e : Engine) (p : Payload) (u u' : datetime)
    (cid : string) (t : datetime) (c r : float) :
  stored_values fromisoformat e p u = Some (cid, t, c, r) ->
  exists t', stored_values fromisoformat e p u' = Some (cid, t', c, r).
Proof.
  unfold stored_values. intros H.
  apply adapt_insert_Some in H. destruct H as [Hn [Hc [Ht [H1 H2]]]].
  destruct (fromisoformat (timestamp p)) as [d|].
  - exists t. apply adapt_insert_Some. now repeat split.
  - exists u'. apply adapt_insert_Some. now repeat split.
Qed.

(** C6 (amended): a timestamp string that does not parse is never what makes
    an ingestion fail.  If the client_id holds no NUL and the engine takes
    cpu and ram as REAL values, the answer is the acknowledgment and one row
    is stored under the server's current time.  If the request fails, it is
    for the client_id, cpu or ram, and nothing is stored.  The outcome is the
    same for every other string that does not parse, and the response is the
    same for a string that parses to a zone-less time. *)
Theorem malformed_timestamp_accepted
    (fromisoformat : string -> option pydatetime) (e : Engine)
    (p : Payload) (a : option string) (utcnow : datetime) (db : Database) :
  fromisoformat (timestamp p) = None ->
  (forall c r,
      has_nul (client_id p) = false ->
      to_real e (cpu p) = Some c -> to_real e (ram p) = Some r ->
      collect fromisoformat e p a utcnow db =
      (Ok [("status", JString "ok")],
       mkDatabase
         (metricas db ++
          [mkMetrica (metricas_id_seq db + 1) (client_id p) utcnow c r])
         (metricas_id_seq db + 1) (comandos db))) /\
  (fst (collect fromisoformat e p a utcnow db) <> Ok [("status", JString "ok")] ->
   (has_nul (client_id p) = true \/ to_real e (cpu p) = None \/
    to_real e (ram p) = None) /\
   collect fromisoformat e p a utcnow db = (Unhandled, db)) /\
  (forall s',
      fromisoformat s' = None ->
      collect fromisoformat e (mkPayload (client_id p) s' (cpu p) (ram p))
              a utcnow db =
      collect fromisoformat e p a utcnow db) /\
  (forall s' d,
      fromisoformat s' = Some d -> utcoffset d = None ->
      fst (collect fromisoformat e (mkPayload (client_id p) s' (cpu p) (ram p))
                   a utcnow db) =
      fst (collect fromisoformat e p a utcnow db)).
Proof.
  intros Hp. split; [|split; [|split]].
  - intros c r Hn Hc Hr. rewrite collect_cases. unfold stored_values.
    rewrite Hp.
    assert (E : adapt_insert e (client_id p) (mkPy utcnow None) (cpu p) (ram p)
                = Some (client_id p, utcnow, c, r))
      by (apply adapt_insert_Some; now repeat split).
    now rewrite E.
  - rewrite collect_cases. unfold stored_values. rewrite Hp.
    destruct (adapt_insert e (client_id p) (mkPy utcnow None) (cpu p) (ram p))
      as [v|] eqn:E; simpl.
    + intros H. now elim H.
    + intros _. split; [|reflexivity].
      apply adapt_insert_None in E.
      destruct E as [E|[E|E]]; [now left | discriminate E | now right].
  - intros s' Hs. rewrite !collect_cases. unfold stored_values. simpl.
    now rewrite Hp, Hs.
  - intros s' d Hs Hd. rewrite !collect_cases. unfold stored_values. simpl.
    rewrite Hp, Hs. unfold adapt_insert, kept_timestamp. rewrite Hd. simpl.
    destruct (has_nul (client_id p)); [reflexivity|].
    destruct (to_real e (cpu p)); [|reflexivity].
    now destruct (to_real e (ram p)).
Qed.

Lemma malformed_timestamp_accepted_witness :
  collect fromisoformat_known sample_engine (sample "pc-1" "not-a-date")
          None 42 init_db =
  (Ok [("status", JString "ok")],
   mkDatabase [mkMetrica 1 "pc-1" 42 10 20] 1 []).
Proof.
  exact (proj1 (malformed_timestamp_accepted fromisoformat_known sample_engine
                  (sample "pc-1" "not-a-date") None 42 init_db eq_refl)
               10%float 20%float eq_refl eq_refl eq_refl).
Defined.

(** C6, as stated, fails on a payload whose timestamp does not parse and
    whose cpu is beyond the REAL range: the request ends in an unhandled
    error and no row is stored. *)
Lemma malformed_timestamp_refused_cpu :
  fromisoformat_known "not-a-date" = None /\
  collect fromisoformat_known sample_engine
          (mkPayload "pc-1" "not-a-date" 0x1p+130 20) None 42 init_db =
  (Unhandled, init_db) /\
  ~ (fst (collect fromisoformat_known sample_engine
                  (mkPayload "pc-1" "not-a-date" 0x1p+130 20) None 42 init_db) =
     Ok [("status", JString "ok")]).
Proof.
  split; [reflexivity|]. split; [reflexivity|]. discriminate.
Qed.

(** C7 (amended): an ingestion whose values the driver and the engine take
    adds exactly one row for the payload's client: the rows stored before are
    still there, unchanged and in place, the new row comes after them and
    holds cpu and ram as the engine's REAL values, no other client's rows and
    no command row change, and the same payload submitted again is taken
    again and adds a second row, told apart by its id. *)
Theorem collect_appends_one_row
    (fromisoformat : string -> option pydatetime) (e : Engine)
    (p : Payload) (a : option string) (utcnow : datetime) (db : Database)
    (cid : string) (t : datetime) (c r : float) :
  stored_values fromisoformat e p utcnow = Some (cid, t, c, r) ->
  let db1 := snd (collect fromisoformat e p a utcnow db) in
  fst (collect fromisoformat e p a utcnow db) = Ok [("status", JString "ok")] /\
  List.length (metricas_of (client_id p) (metricas db1)) =
    S (List.length (metricas_of (client_id p) (metricas db))) /\
  metricas db1 =
    metricas db ++ [mkMetrica (metricas_id_seq db + 1) (client_id p) t c r] /\
  to_real e (cpu p) = Some c /\ to_real e (ram p) = Some r /\
  (forall cid', cid' <> client_id p ->
                metricas_of cid' (metricas db1) = metricas_of cid' (metricas db)) /\
  comandos db1 = comandos db /\
  (forall a' utcnow',
      let db2 := snd (collect fromisoformat e p a' utcnow' db1) in
      fst (collect fromisoformat e p a' utcnow' db1) =
        Ok [("status", JString "ok")] /\
      List.length (metricas_of (client_id p) (metricas db2)) =
        S (S (List.length (metricas_of (client_id p) (metricas db)))) /\
      exists row1 row2,
        metricas db2 = metricas db ++ [row1; row2] /\
        m_id row1 <> m_id row2).
Proof.
  intros Hv db1.
  assert (Hc : cid = client_id p /\ to_real e (cpu p) = Some c /\
               to_real e (ram p) = Some r).
  { unfold stored_values in Hv. apply adapt_insert_Some in Hv. tauto. }
  destruct Hc as [-> [Hcpu Hram]].
  assert (E1 : collect fromisoformat e p a utcnow db =
               (Ok [("status", JString "ok")],
                mkDatabase
                  (metricas db ++
                   [mkMetrica (metricas_id_seq db + 1) (client_id p) t c r])
                  (metricas_id_seq db + 1) (comandos db)))
    by (rewrite collect_cases, Hv; reflexivity).
  unfold db1. rewrite E1. cbn [fst snd metricas comandos].
  split; [reflexivity|]. split; [|split; [reflexivity|]].
  - unfold metricas_of. rewrite filter_app, length_app.
    simpl. rewrite String.eqb_refl. simpl. lia.
  - split; [assumption|]. split; [assumption|]. split; [|split; [reflexivity|]].
    + intros cid' Hne. unfold metricas_of. rewrite filter_app.
      simpl. destruct (String.eqb_spec (client_id p) cid'); [congruence|].
      apply app_nil_r.
    + intros a' utcnow'.
      destruct (stored_values_any_clock fromisoformat e p utcnow utcnow'
                  _ _ _ _ Hv) as [t' Hv'].
      rewrite collect_cases, Hv'. cbn [fst snd metricas metricas_id_seq stored_row].
      split; [reflexivity|]. split.
      * unfold metricas_of. rewrite !filter_app, !length_app.
        simpl. rewrite String.eqb_refl. simpl. lia.
      * do 2 eexists. rewrite <- app_assoc. split; [reflexivity|].
        simpl. lia.
Qed.

Lemma collect_appends_one_row_witness :
  metricas (snd (collect fromisoformat_known sample_engine
                   (mkPayload "pc-1" "2024-05-01T10:00:00" 16777217 20)
                   None 0 init_db)) =
  [mkMetrica 1 "pc-1" 1714557600000000 16777216 20].
Proof.
  exact (proj1 (proj2 (proj2
           (collect_appends_one_row fromisoformat_known sample_engine
              (mkPayload "pc-1" "2024-05-01T10:00:00" 16777217 20)
              None 0 init_db "pc-1" 1714557600000000 16777216%float 20%float
              eq_refl)))).
Defined.

(** C7, as stated, fails on a valid payload whose cpu is beyond the REAL
    range: the request ends in an unhandled error and the client has as many
    rows as before. *)
Lemma collect_refused_adds_no_row :
  collect fromisoformat_known sample_engine
          (mkPayload "pc-1" "2024-05-01T10:00:00" 0x1p+130 20) None 0
          three_samples =
  (Unhandled, three_samples) /\
  ~ (List.length
       (metricas_of "pc-1"
          (metricas
             (snd (collect fromisoformat_known sample_engine
                     (mkPayload "pc-1" "2024-05-01T10:00:00" 0x1p+130 20)
                     None 0 three_samples)))) =
     S (List.length (metricas_of "pc-1" (metricas three_samples)))).
Proof.
  split; [reflexivity|]. vm_compute. discriminate.
Qed.

(** C9 (amended): nothing requires the client_id to be non-empty.  Whenever
    an ingestion is accepted, the stored row carries the payload's client_id
    as it came; and a payload with the empty client_id is accepted and stored
    whenever its timestamp, cpu and ram are. *)
Theorem collect_keeps_client_id
    (fromisoformat : string -> option pydatetime) (e : Engine)
    (p : Payload) (a : option string) (utcnow : datetime) (db : Database) :
  (fst (collect fromisoformat e p a utcnow db) = Ok [("status", JString "ok")] ->
   exists row,
     metricas (snd (collect fromisoformat e p a utcnow db)) =
       metricas db ++ [row] /\
     m_client_id row = client_id p) /\
  (forall t c r,
      client_id p = "" ->
      kept_timestamp e
        (match fromisoformat (timestamp p) with
         | Some d => d
         | None => mkPy utcnow None
         end) = Some t ->
      to_real e (cpu p) = Some c -> to_real e (ram p) = Some r ->
      collect fromisoformat e p a utcnow db =
      (Ok [("status", JString "ok")],
       mkDatabase (metricas db ++ [mkMetrica (metricas_id_seq db + 1) "" t c r])
                  (metricas_id_seq db + 1) (comandos db))).
Proof.
  split.
  - rewrite collect_cases.
    destruct (stored_values fromisoformat e p utcnow) as [[[[cid t] c] r]|] eqn:E;
      [|discriminate].
    intros _. unfold stored_values in E. apply adapt_insert_Some in E.
    destruct E as [_ [-> _]].
    eexists. split; reflexivity.
  - intros t c r Hc Ht Hcpu Hram. rewrite collect_cases.
    assert (E : stored_values fromisoformat e p utcnow = Some ("", t, c, r)).
    { unfold stored_values. apply adapt_insert_Some.
      rewrite Hc. now repeat split. }
    now rewrite E.
Qed.

(** C9, as stated, fails on the empty client_id: the payload is accepted and
    a row with the empty client_id is stored. *)
Lemma collect_empty_client_id :
  collect fromisoformat_known sample_engine
          (sample "" "2024-05-01T10:00:00") None 42 init_db =
  (Ok [("status", JString "ok")],
   mkDatabase [mkMetrica 1 "" 1714557600000000 10 20] 1 []) /\
  ~ (forall row,
        In row (metricas
                  (snd (collect fromisoformat_known sample_engine
                          (sample "" "2024-05-01T10:00:00") None 42 init_db))) ->
        m_client_id row <> "").
Proof.
  split; [reflexivity|].
  intros H. apply (H (mkMetrica 1 "" 1714557600000000 10 20)).
  - now left.
  - reflexivity.
Qed.

(** C10: the Authorization header plays no part in ingestion: with the same
    payload, clock and store, any two header values (present or absent) give
    the same response and the same store; when one request is acknowledged so
    is the other, and the row they append is one and the same. *)
Theorem collect_ignores_authorization
    (fromisoformat : string -> option pydatetime) (e : Engine)
    (p : Payload) (a1 a2 : option string) (utcnow : datetime) (db : Database) :
  collect fromisoformat e p a1 utcnow db = collect fromisoformat e p a2 utcnow db /\
  (fst (collect fromisoformat e p a1 utcnow db) = Ok [("status", JString "ok")] ->
   fst (collect fromisoformat e p a2 utcnow db) = Ok [("status", JString "ok")] /\
   exists row,
     metricas (snd (collect fromisoformat e p a1 utcnow db)) = metricas db ++ [row] /\
     metricas (snd (collect fromisoformat e p a2 utcnow db)) = metricas db ++ [row]).
Proof.
  rewrite (collect_cases fromisoformat e p a1), (collect_cases fromisoformat e p a2).
  split; [reflexivity|].
  destruct (stored_values fromisoformat e p utcnow) as [v|]; [|discriminate].
  intros _. split; [reflexivity|].
  eexists. split; reflexivity.
Qed.
(** ** The outcomes of a command write *)

Lemma passes_guard_iff (key : string) (authorization : option string) :
  passes_guard key authorization = true <-> presents_key key authorization.
Proof.
  split.
  - unfold passes_guard. rewrite negb_true_iff, orb_false_iff, !negb_false_iff.
    intros [Ht Hs]. destruct authorization as [a|]; [|discriminate Ht].
    exists a. split; [reflexivity|]. split.
    + intros ->. discriminate Ht.
    + now apply str_in_spec.
  - intros H. unfold passes_guard. now rewrite (guard_passes _ _ H).
Qed.

Lemma set_command_cases (key cid command : string)
    (authorization : option string) (now : datetime) (db : Database) :
  set_command key cid command authorization now db =
  if negb (passes_guard key authorization)
  then (HTTPException 401 "Unauthorized", db)
  else if negb (existsb (String.eqb command) ["start"; "stop"])
  then (HTTPException 400 "Invalid command", db)
  else
    (Ok [("status", JString "ok"); ("client_id", JString cid);
         ("command", JString command)],
     mkDatabase (metricas db) (metricas_id_seq db)
                (upsert_comando (mkComando cid command now) (comandos db))).
Proof.
  unfold set_command, passes_guard. now rewrite negb_involutive.
Qed.

(** X1: what a command write answers, by its two checks: 401 exactly when
    the header is missing, empty or lacks the key, so the credential is
    checked first; 400 exactly when the header is fine and the command is
    neither "start" nor "stop".  The acknowledgment, and a store that differs
    from the one before, occur only when both checks pass. *)
Theorem set_command_outcomes (key cid command : string)
    (authorization : option string) (now : datetime) (db : Database) :
  let r := set_command key cid command authorization now db in
  (fst r = HTTPException 401 "Unauthorized" <->
   ~ presents_key key authorization) /\
  (fst r = HTTPException 400 "Invalid command" <->
   presents_key key authorization /\ ~ valid_command command) /\
  (fst r = Ok [("status", JString "ok"); ("client_id", JString cid);
               ("command", JString command)] ->
   presents_key key authorization /\ valid_command command) /\
  (snd r <> db -> presents_key key authorization /\ valid_command command).
Proof.
  intros r. unfold r. rewrite set_command_cases.
  rewrite <- passes_guard_iff, <- command_check.
  destruct (passes_guard key authorization);
    destruct (existsb (String.eqb command) ["start"; "stop"]); simpl;
    repeat split; try discriminate; try tauto; intuition discriminate.
Qed.

(** ** Process start *)

(** X3: the module refuses to load exactly when DATABASE_URL is unset or set
    to the empty string.  When it loads, the connection string is the
    variable's non-empty value, and the key is the value of API_KEY whenever
    that variable is set, even to the empty string; the built-in default is
    used only when it is unset. *)
Theorem module_init_settings (env : environ) :
  (module_init env = None <->
   env "DATABASE_URL" = None \/ env "DATABASE_URL" = Some "") /\
  (forall s, module_init env = Some s ->
     env "DATABASE_URL" = Some (DB_URL s) /\ DB_URL s <> "" /\
     (env "API_KEY" = None -> API_KEY s = "minha-chave-teste") /\
     (forall k, env "API_KEY" = Some k -> API_KEY s = k)).
Proof.
  unfold module_init.
  destruct (env "DATABASE_URL") as [[|c u]|]; simpl; split.
  - split; [now right | reflexivity].
  - discriminate.
  - split; [discriminate | intros [H|H]; discriminate H].
  - intros s E. inversion E; subst; simpl. repeat split.
    + discriminate.
    + intros H. now rewrite H.
    + intros k H. now rewrite H.
  - split; [now left | reflexivity].
  - discriminate.
Qed.



(** X4: after [startup] both tables exist.  Tables that existed keep their
    rows and the id sequence its value, so running it on a working store
    changes nothing and running it twice is the same as once; on an empty
    database it yields the empty store with the sequence at its start. *)
Theorem startup_keeps_data (s : Storage) :
  (exists db, tables (startup s) = Some db) /\
  startup (startup s) = startup s /\
  (forall db, tables s = Some db ->
              startup s = s /\ tables (startup s) = Some db) /\
  (forall t, tbl_metricas s = Some t -> tbl_metricas (startup s) = Some t) /\
  (forall t, tbl_comandos s = Some t -> tbl_comandos (startup s) = Some t) /\
  (tbl_metricas s = None -> tbl_comandos s = None ->
   tables (startup s) = Some init_db).
Proof.
  destruct s as [[[rows sq]|] [cmds|]]; unfold startup, tables; simpl;
    repeat split; try discriminate; try (intros; assumption);
    try (eexists; reflexivity); try (intros db E; now inversion E).
Qed.

(** ** Request sequences *)


Lemma serve_set_command (key : string)
    (fromisoformat : string -> option pydatetime) (engine : Engine)
    (cid command : string) (a : option string) (t : datetime) (db : Database) :
  serve key fromisoformat engine (SetCommand cid command a t) db =
  match accepted_write key (SetCommand cid command a t) with
  | Some w =>
      mkDatabase (metricas db) (metricas_id_seq db)
                 (upsert_comando w (comandos db))
  | None => db
  end.
Proof.
  simpl. rewrite set_command_cases.
  destruct (passes_guard key a); simpl; [|reflexivity].
  now destruct (String.eqb command "start" || (String.eqb command "stop" || false)).
Qed.

Lemma serve_unchanged (key : string)
    (fromisoformat : string -> option pydatetime) (engine : Engine) (rq : request) (db : Database) :
  changes_store key rq = false -> serve key fromisoformat engine rq db = db.
Proof.
  destruct rq as [p a t | cid | cid c a t | cid l]; intros H.
  - discriminate H.
  - simpl. unfold get_command. now destruct (comandos_of cid (comandos db)).
  - rewrite serve_set_command. unfold changes_store in H.
    now destruct (accepted_write key (SetCommand cid c a t)).
  - simpl. unfold metrics_query, metrics.
    destruct (has_nul cid); [reflexivity|].
    destruct (limit_accepted _); [|reflexivity].
    now destruct (renders _).
Qed.








(** ** Stored samples over request sequences *)

Lemma serve_metricas (key : string)
    (fromisoformat : string -> option pydatetime) (engine : Engine)
    (rq : request) (db : Database) :
  metricas (serve key fromisoformat engine rq db) =
    metricas db ++
    match rq with
    | Collect p a t =>
        match stored_values fromisoformat engine p t with
        | Some v => [stored_row (metricas_id_seq db) v]
        | None => []
        end
    | _ => []
    end /\
  metricas_id_seq (serve key fromisoformat engine rq db) =
    metricas_id_seq db + (if stored_collect fromisoformat engine rq then 1 else 0).
Proof.
  destruct rq as [p a t | cid | cid c a t | cid l].
  - simpl. rewrite collect_cases.
    destruct (stored_values fromisoformat engine p t); simpl.
    + split; reflexivity.
    + rewrite app_nil_r. split; [reflexivity | lia].
  - rewrite serve_unchanged by reflexivity. rewrite app_nil_r.
    split; [reflexivity | simpl; lia].
  - rewrite serve_set_command.
    destruct (accepted_write key (SetCommand cid c a t)); simpl;
      rewrite app_nil_r; (split; [reflexivity | lia]).
  - rewrite serve_unchanged by reflexivity. rewrite app_nil_r.
    split; [reflexivity | simpl; lia].
Qed.

Lemma stored_row_id (sq : Z) (v : string * datetime * float * float) :
  m_id (stored_row sq v) = sq + 1.
Proof. now destruct v as [[[cid t] c] r]. Qed.

Lemma serial_ids_S (n : nat) :
  serial_ids (S n) = serial_ids n ++ [Z.of_nat n + 1].
Proof.
  unfold serial_ids. rewrite seq_S, map_app. simpl. f_equal. f_equal. lia.
Qed.

Lemma serial_ids_NoDup (n : nat) : NoDup (serial_ids n).
Proof.
  unfold serial_ids. generalize (seq_NoDup n 1).
  induction 1 as [|x l Hx Hl IH]; simpl; constructor; [|assumption].
  rewrite in_map_iff. intros [y [E Hy]].
  apply Nat2Z.inj in E. now subst.
Qed.

(** X7: in every store reachable from the initial one, the ids of the stored
    samples are 1, 2, ..., n in storage order, n being the number of samples
    and the current value of the id sequence: ids are unique over all
    clients, are never reused, and grow with the order of arrival. *)
Theorem metric_ids_serial (key : string)
    (fromisoformat : string -> option pydatetime) (engine : Engine)
    (db : Database) :
  reachable key fromisoformat engine db ->
  map m_id (metricas db) = serial_ids (List.length (metricas db)) /\
  metricas_id_seq db = Z.of_nat (List.length (metricas db)) /\
  NoDup (map m_id (metricas db)).
Proof.
  intros Hr.
  assert (H : map m_id (metricas db) = serial_ids (List.length (metricas db)) /\
              metricas_id_seq db = Z.of_nat (List.length (metricas db))).
  { induction Hr as [|rq db Hr [IHm IHs]]; [split; reflexivity|].
    destruct (serve_metricas key fromisoformat engine rq db) as [Em Es].
    rewrite Em, Es.
    destruct rq as [p a t | cid | cid c a t | cid l]; simpl;
      try (rewrite app_nil_r; split; [assumption | lia]).
    destruct (stored_values fromisoformat engine p t) as [v|].
    - rewrite map_app, length_app, IHm. simpl List.length. simpl map.
      rewrite stored_row_id, Nat.add_1_r, serial_ids_S, IHs.
      split; [reflexivity | lia].
    - rewrite app_nil_r. split; [assumption | lia]. }
  destruct H as [Hm Hs]. repeat split; try assumption.
  rewrite Hm. apply serial_ids_NoDup.
Qed.

Lemma metric_ids_serial_witness :
  map m_id (metricas three_samples) = [1; 2; 3] /\
  metricas_id_seq three_samples = 3.
Proof.
  destruct (metric_ids_serial default_key fromisoformat_known sample_engine
              three_samples three_samples_reachable)
    as [Hm [Hs _]].
  split; [exact Hm | exact Hs].
Defined.

Lemma run_cons (key : string) (fromisoformat : string -> option pydatetime)
    (engine : Engine) (rq : request) (trace : list request) (db : Database) :
  run key fromisoformat engine (rq :: trace) db =
  run key fromisoformat engine trace (serve key fromisoformat engine rq db).
Proof. reflexivity. Qed.

(** The rows a request sequence adds, counted. *)
Lemma run_metricas (key : string)
    (fromisoformat : string -> option pydatetime) (engine : Engine)
    (trace : list request) (db : Database) :
  exists added,
    metricas (run key fromisoformat engine trace db) = metricas db ++ added /\
    List.length added =
      List.length (filter (stored_collect fromisoformat engine) trace) /\
    metricas_id_seq (run key fromisoformat engine trace db) =
      metricas_id_seq db + Z.of_nat (List.length added).
Proof.
  revert db. induction trace as [|rq trace IH]; intros db.
  - exists []. simpl. rewrite app_nil_r. repeat split. lia.
  - rewrite run_cons.
    destruct (IH (serve key fromisoformat engine rq db)) as [added [Hm [Hl Hs]]].
    destruct (serve_metricas key fromisoformat engine rq db) as [Em Es].
    rewrite Hm, Hs, Em, Es, <- app_assoc.
    eexists. split; [reflexivity|].
    rewrite length_app. simpl filter.
    destruct rq as [p a t | cid | cid c a t | cid l]; simpl;
      try (split; lia).
    destruct (stored_values fromisoformat engine p t); simpl; split; lia.
Qed.

Lemma stored_collects_le (fromisoformat : string -> option pydatetime)
    (engine : Engine) (trace : list request) :
  (List.length (filter (stored_collect fromisoformat engine) trace) <=
   List.length (filter is_collect trace))%nat.
Proof.
  induction trace as [|rq trace IH]; simpl; [lia|].
  destruct rq as [p a t | cid | cid c a t | cid l]; simpl; try exact IH.
  destruct (stored_values fromisoformat engine p t); simpl; lia.
Qed.

(** X8: no sequence of requests removes or alters a stored sample: the rows
    stored before are an unchanged prefix of the rows stored after.  The rows
    added are as many as the sequence has ingestion requests whose INSERT
    went through, at most one per ingestion request, and the id sequence has
    advanced by that number. *)
Theorem run_appends_only (key : string)
    (fromisoformat : string -> option pydatetime) (engine : Engine)
    (trace : list request) (db : Database) :
  exists added,
    metricas (run key fromisoformat engine trace db) = metricas db ++ added /\
    List.length added =
      List.length (filter (stored_collect fromisoformat engine) trace) /\
    (List.length added <= List.length (filter is_collect trace))%nat /\
    metricas_id_seq (run key fromisoformat engine trace db) =
      metricas_id_seq db + Z.of_nat (List.length added).
Proof.
  destruct (run_metricas key fromisoformat engine trace db)
    as [added [Hm [Hl Hs]]].
  exists added. repeat split; try assumption.
  rewrite Hl. apply stored_collects_le.
Qed.

(** X9: requests that only read (command reads, metrics queries, whether
    they succeed or fail) and command writes that are refused leave no trace
    in the store: dropping them from a request sequence gives the same final
    store. *)
Theorem run_ignores_reads (key : string)
    (fromisoformat : string -> option pydatetime) (engine : Engine)
    (trace : list request) (db : Database) :
  run key fromisoformat engine trace db =
  run key fromisoformat engine (filter (changes_store key) trace) db.
Proof.
  revert db. induction trace as [|rq trace IH]; intros db; [reflexivity|].
  rewrite run_cons. simpl filter. destruct (changes_store key rq) eqn:E.
  - rewrite run_cons. apply IH.
  - rewrite (serve_unchanged key fromisoformat engine rq db E). apply IH.
Qed.

(** ** What the metrics endpoint can answer *)

(** X10: the only list the metrics endpoint ever returns is the empty one.
    An answer is given only for a limit the engine accepts that is 0 or for a
    client without stored samples; for a client_id without NUL that answer is
    indeed given, and it is the empty list, not an error.  No query changes
    the store. *)
Theorem metrics_returns_only_empty (e : Engine) (cid : string) (limit : Z)
    (db : Database) :
  selects_newest e ->
  (forall rows,
      fst (metrics e cid limit db) = Ok rows ->
      rows = [] /\ 0 <= limit <= bigint_max /\
      (limit = 0 \/ metricas_of cid (metricas db) = [])) /\
  (has_nul cid = false ->
   0 <= limit <= bigint_max ->
   limit = 0 \/ metricas_of cid (metricas db) = [] ->
   fst (metrics e cid limit db) = Ok []) /\
  snd (metrics e cid limit db) = db.
Proof.
  intros He.
  assert (Hempty : 0 <= limit ->
                   (metrics_rows e cid limit db = [] <->
                    limit = 0 \/ metricas_of cid (metricas db) = [])).
  { intros Hl.
    pose proof (metrics_rows_length e cid limit db He Hl) as Hlen.
    destruct (metrics_rows e cid limit db) as [|x l];
      destruct (metricas_of cid (metricas db)) as [|y m];
      simpl List.length in Hlen; split; intros H; try reflexivity;
      try (now right); try discriminate H.
    - left. lia.
    - exfalso. lia.
    - destruct H as [H|H]; [exfalso; lia | discriminate H]. }
  unfold metrics.
  destruct (has_nul cid).
  { split; [|split; [|reflexivity]].
    - intros rows H. discriminate H.
    - intros H. discriminate H. }
  destruct (limit_accepted limit) eqn:A.
  - apply limit_accepted_iff in A.
    destruct (metrics_rows e cid limit db) as [|x l] eqn:E; simpl.
    + split; [|split; [|reflexivity]].
      * intros rows H. inversion H; subst.
        split; [reflexivity|]. split; [lia|].
        apply Hempty; [lia | reflexivity].
      * intros _ _ _. reflexivity.
    + split; [|split; [|reflexivity]].
      * intros rows H. discriminate H.
      * intros _ _ H. apply Hempty in H; [|lia]. discriminate H.
  - split; [|split; [|reflexivity]].
    + intros rows H. discriminate H.
    + intros _ H _. apply limit_accepted_iff in H. congruence.
Qed.

Lemma metrics_returns_only_empty_witness :
  fst (metrics sample_engine "pc-2" 500 three_samples) = Ok [] /\
  fst (metrics sample_engine "pc-1" 0 three_samples) = Ok [].
Proof.
  assert (H500 : 0 <= 500 <= bigint_max) by (unfold bigint_max; lia).
  assert (H0 : 0 <= 0 <= bigint_max) by (unfold bigint_max; lia).
  split.
  - exact (proj1 (proj2 (metrics_returns_only_empty sample_engine "pc-2" 500
                           three_samples sample_engine_selects_newest))
                 eq_refl H500 (or_intror eq_refl)).
  - exact (proj1 (proj2 (metrics_returns_only_empty sample_engine "pc-1" 0
                           three_samples sample_engine_selects_newest))
                 eq_refl H0 (or_introl eq_refl)).
Defined.

(** X11: once a sample of a client has been accepted, every later metrics
    query for that client with a positive limit the engine accepts ends in an
    unhandled error, whatever requests are served in between: samples are
    never removed, so the endpoint does not recover. *)
Theorem metrics_fails_after_ingestion (key : string)
    (fromisoformat : string -> option pydatetime) (e : Engine)
    (p : Payload) (a : option string) (utcnow : datetime)
    (trace : list request) (limit : Z) (db : Database) :
  selects_newest e ->
  0 < limit <= bigint_max ->
  fst (collect fromisoformat e p a utcnow db) = Ok [("status", JString "ok")] ->
  fst (metrics e (client_id p) limit
         (run key fromisoformat e trace
              (snd (collect fromisoformat e p a utcnow db)))) = Unhandled.
Proof.
  intros He Hl Hok.
  rewrite metrics_unhandled_of_rows; [reflexivity | assumption | assumption |].
  rewrite collect_cases in Hok |- *.
  destruct (stored_values fromisoformat e p utcnow) as [[[[cid t] c] r]|] eqn:E;
    [|discriminate Hok].
  cbn [snd].
  destruct (run_metricas key fromisoformat e trace
              (mkDatabase
                 (metricas db ++ [stored_row (metricas_id_seq db) (cid, t, c, r)])
                 (metricas_id_seq db + 1) (comandos db)))
    as [added [Hm _]].
  rewrite Hm. cbn [metricas].
  unfold stored_values in E. apply adapt_insert_Some in E.
  destruct E as [_ [-> _]].
  unfold metricas_of. rewrite !filter_app. simpl.
  rewrite String.eqb_refl.
  destruct (filter _ (metricas db)); discriminate.
Qed.

Lemma metrics_fails_after_ingestion_witness :
  fst (metrics sample_engine "pc-1" 500
         (run default_key fromisoformat_known sample_engine
            [SetCommand "pc-1" "start" (Some "Bearer minha-chave-teste") 7;
             GetCommand "pc-1"]
            (snd (collect fromisoformat_known sample_engine
                    (sample "pc-1" "2024-05-01T10:00:00") None 0 init_db)))) =
  Unhandled.
Proof.
  assert (Hl : 0 < 500 <= bigint_max) by (unfold bigint_max; lia).
  exact (metrics_fails_after_ingestion default_key fromisoformat_known
           sample_engine (sample "pc-1" "2024-05-01T10:00:00") None 0
           [SetCommand "pc-1" "start" (Some "Bearer minha-chave-teste") 7;
            GetCommand "pc-1"]
           500 init_db sample_engine_selects_newest Hl eq_refl).
Defined.
